(** * SentimentAnalyzer: the fetch-and-fallback logic of the sentiment widget

    A shallow embedding of [src/components/SentimentAnalyzer.tsx]: the
    component state, the asynchronous [fetchSentimentData] (split at its
    single [await]), the chart series [getChartData] and the derived
    [currentSentiment], followed by the properties of the specification
    that they satisfy or fail. *)

From Stdlib Require Import ZArith String List Bool Lia.
Import ListNotations.

Local Open Scope string_scope.
Local Open Scope list_scope.

(* ================================================================== *)
(** ** Data model *)
(* ================================================================== *)

(** The union type ['24h' | '7d' | '30d'] of the [timeframe] state and of
    the [period] argument. *)
Inductive Period : Type := P24h | P7d | P30d.

Definition periodName (p : Period) : string :=
  match p with
  | P24h => "24h"
  | P7d => "7d"
  | P30d => "30d"
  end.

Definition Period_eqb (p q : Period) : bool :=
  match p, q with
  | P24h, P24h | P7d, P7d | P30d, P30d => true
  | _, _ => false
  end.

(** ['bullish' | 'bearish' | 'neutral']. *)
Inductive Sentiment : Type := bullish | bearish | neutral.

(** [type SentimentData].  The numeric fields are JavaScript numbers; the
    component only stores and displays them, so they are kept as integers. *)
Record SentimentData : Type := mkSentimentData {
  period : string;
  value : Z;
  sentiment : Sentiment;
  tokens_launched : Z;
  tokens_over_100k : Z;
  tokens_over_1m : Z;
  profitable_tokens_percent : Z
}.

(** The object held by the [sentimentData] state, which is also the [data]
    object of a response: [setSentimentData(data)] stores the response as it
    is.  An absent (or null) property is [None]. *)
Module Data.
Record t : Type := mk {
  error : option string;              (* the optional [error] string *)
  sentiment : option SentimentData;
  sentiment24h : option SentimentData;
  sentiment7d : option SentimentData;
  sentiment30d : option SentimentData
}.

(** [{}], the initial value of the [sentimentData] state. *)
Definition empty : t := mk None None None None None.

(** The per-period property [sentiment24h], [sentiment7d] or
    [sentiment30d] that belongs to a period. *)
Definition get (p : Period) (d : t) : option SentimentData :=
  match p with
  | P24h => sentiment24h d
  | P7d => sentiment7d d
  | P30d => sentiment30d d
  end.

(** The assignment [d[`sentiment${p}`] = r]. *)
Definition set (p : Period) (r : SentimentData) (d : t) : t :=
  match p with
  | P24h => mk (error d) (sentiment d) (Some r) (sentiment7d d) (sentiment30d d)
  | P7d => mk (error d) (sentiment d) (sentiment24h d) (Some r) (sentiment30d d)
  | P30d => mk (error d) (sentiment d) (sentiment24h d) (sentiment7d d) (Some r)
  end.
End Data.

(** [const mockSentimentData]. *)
Module mockSentimentData.
Definition sentiment24h : SentimentData :=
  {| period := "24h"; value := 75; sentiment := bullish;
     tokens_launched := 42; tokens_over_100k := 18; tokens_over_1m := 8;
     profitable_tokens_percent := 65 |}.

Definition sentiment7d : SentimentData :=
  {| period := "7d"; value := 62; sentiment := bullish;
     tokens_launched := 124; tokens_over_100k := 58; tokens_over_1m := 22;
     profitable_tokens_percent := 52 |}.

Definition sentiment30d : SentimentData :=
  {| period := "30d"; value := 48; sentiment := neutral;
     tokens_launched := 380; tokens_over_100k := 160; tokens_over_1m := 65;
     profitable_tokens_percent := 43 |}.

(** [mockSentimentData[`sentiment${period}`]]. *)
Definition get (p : Period) : SentimentData :=
  match p with
  | P24h => sentiment24h
  | P7d => sentiment7d
  | P30d => sentiment30d
  end.
End mockSentimentData.

(** The object literal passed to [setSentimentData] on both fallback paths. *)
Definition mockTable (p : Period) : Data.t :=
  {| Data.error := None;
     Data.sentiment := Some (mockSentimentData.get p);
     Data.sentiment24h := Some mockSentimentData.sentiment24h;
     Data.sentiment7d := Some mockSentimentData.sentiment7d;
     Data.sentiment30d := Some mockSentimentData.sentiment30d |}.

(** The four [useState] cells of the component. *)
Record State : Type := mkState {
  timeframe : Period;
  isLoading : bool;
  error : option string;
  sentimentData : Data.t
}.

(** The values given to [useState] at mount. *)
Definition initialState : State :=
  {| timeframe := P24h; isLoading := true; error := None;
     sentimentData := Data.empty |}.

(** A call of [toast.warning] or [toast.error]. *)
Inductive Toast : Type :=
| toast_warning (text : string)
| toast_error (text : string).

(** The component state together with the notifications emitted so far
    (oldest first). *)
Record World : Type := mkWorld {
  state : State;
  toasts : list Toast
}.

(** An object with a [message] property: a thrown [Error], or the [error]
    member of the result of [supabase.functions.invoke].  A missing message
    is the empty string, which is falsy as well.  A value without
    properties ([null], [undefined]) is not an [Err]; a rejection with such
    a reason is treated apart, in [fetchSentimentData_rejected]. *)
Record Err : Type := mkErr { message : string }.

(** What [await supabase.functions.invoke(...)] produces: the promise is
    rejected with some error, or fulfilled with [{ data, error }]. *)
Module Invoke.
Record result : Type := mk {
  data : option Data.t;
  error : option Err
}.
End Invoke.

Inductive Settled : Type :=
| Rejected (reason : Err)
| Fulfilled (r : Invoke.result).

(* ================================================================== *)
(** ** Effects: state, notifications and exceptions *)
(* ================================================================== *)

(** A computation changes the world and either throws or returns.  State
    changes made before a throw persist, as in JavaScript. *)
Definition Eff (A : Type) : Type := World -> World * (Err + A).

Definition ret {A : Type} (a : A) : Eff A := fun w => (w, inr a).

Definition bind {A B : Type} (c : Eff A) (k : A -> Eff B) : Eff B :=
  fun w =>
    match c w with
    | (w', inl e) => (w', inl e)
    | (w', inr a) => k a w'
    end.

Definition throw {A : Type} (e : Err) : Eff A := fun w => (w, inl e).

(** [try { body } catch (err) { handler }]. *)
Definition try_catch {A : Type} (body : Eff A) (handler : Err -> Eff A) : Eff A :=
  fun w =>
    match body w with
    | (w', inl e) => handler e w'
    | (w', inr a) => (w', inr a)
    end.

(** [... finally { cleanup }]: the cleanup runs on both exits and keeps the
    result of the block unless it throws itself. *)
Definition finally {A : Type} (block : Eff A) (cleanup : Eff unit) : Eff A :=
  fun w =>
    match block w with
    | (w', r) =>
        match cleanup w' with
        | (w'', inl e) => (w'', inl e)
        | (w'', inr _) => (w'', r)
        end
    end.

Declare Scope eff_scope.
Delimit Scope eff_scope with eff.
Notation "c1 ;; c2" := (bind c1 (fun _ => c2))
  (at level 61, right associativity) : eff_scope.
Notation "x <- c1 ;; c2" := (bind c1 (fun x => c2))
  (at level 61, c1 at next level, right associativity) : eff_scope.

Definition modifyState (f : State -> State) : Eff unit :=
  fun w => ({| state := f (state w); toasts := toasts w |}, inr tt).

Definition setTimeframe (p : Period) : Eff unit :=
  modifyState (fun s => mkState p (isLoading s) (error s) (sentimentData s)).

Definition setIsLoading (b : bool) : Eff unit :=
  modifyState (fun s => mkState (timeframe s) b (error s) (sentimentData s)).

Definition setError (e : option string) : Eff unit :=
  modifyState (fun s => mkState (timeframe s) (isLoading s) e (sentimentData s)).

Definition setSentimentData (d : Data.t) : Eff unit :=
  modifyState (fun s => mkState (timeframe s) (isLoading s) (error s) d).

Definition emit (t : Toast) : Eff unit :=
  fun w => ({| state := state w; toasts := toasts w ++ [t] |}, inr tt).

(* ================================================================== *)
(** ** JavaScript truthiness *)
(* ================================================================== *)

(** A string is truthy unless it is empty. *)
Definition truthy (s : string) : bool :=
  match s with
  | EmptyString => false
  | String _ _ => true
  end.

(** [s || d] on strings. *)
Definition or_else (s d : string) : string := if truthy s then s else d.

(** Truthiness of an optional property: a present object is truthy, an
    absent one is not. *)
Definition present {A : Type} (o : option A) : bool :=
  match o with
  | Some _ => true
  | None => false
  end.

(** [data.error] as a condition: present and not the empty string. *)
Definition errorField (d : Data.t) : option string :=
  match Data.error d with
  | Some s => if truthy s then Some s else None
  | None => None
  end.

(** [data.sentiment || data.sentiment24h || data.sentiment7d ||
    data.sentiment30d] as a condition. *)
Definition hasSentiment (d : Data.t) : bool :=
  present (Data.sentiment d) || present (Data.sentiment24h d)
  || present (Data.sentiment7d d) || present (Data.sentiment30d d).

(** The message of the [TypeError] raised by reading [data.error] when
    [data] is null or undefined.  The wording belongs to the engine and
    differs between engines and between the two values; this is one
    instance of it, and the properties below rest on nothing but its being
    a non-empty string. *)
Definition nullDataMessage : string :=
  "Cannot read properties of null (reading 'error')".

(* ================================================================== *)
(** ** fetchSentimentData *)
(* ================================================================== *)

Local Open Scope eff_scope.

(** The part of [fetchSentimentData] that runs before the [await]. *)
Definition fetchSentimentData_begin (period : Period) : Eff unit :=
  setIsLoading true ;;
  setError None.

(** The body of the [try] block from the [await] on. *)
Definition fetchSentimentData_try (period : Period) (awaited : Settled) : Eff unit :=
  match awaited with
  | Rejected reason => throw reason
  | Fulfilled r =>
      match Invoke.error r with
      | Some error =>
          throw (mkErr (or_else (message error) "Failed to fetch market data"))
      | None =>
          match Invoke.data r with
          | None => throw (mkErr nullDataMessage)
          | Some data =>
              match errorField data with
              | Some e => throw (mkErr e)
              | None =>
                  if hasSentiment data then
                    setSentimentData data
                  else
                    setSentimentData (mockTable period) ;;
                    emit (toast_warning
                      "Using simulated market data. Connect APIs for live data.")
              end
          end
      end
  end.

(** The [catch (err)] block. *)
Definition fetchSentimentData_catch (period : Period) (err : Err) : Eff unit :=
  setError (Some (or_else (message err) "Failed to fetch market sentiment")) ;;
  setSentimentData (mockTable period) ;;
  emit (toast_error
    (String.append "Error loading market data: "
                   (or_else (message err) "Unknown error"))).

(** The continuation of [fetchSentimentData] once the awaited promise has
    settled: [try ... catch ... finally]. *)
Definition fetchSentimentData_resume (period : Period) (awaited : Settled) : Eff unit :=
  finally
    (try_catch (fetchSentimentData_try period awaited)
               (fetchSentimentData_catch period))
    (setIsLoading false).

(** A whole call of [fetchSentimentData] with nothing else running between
    its start and the arrival of the response. *)
Definition fetchSentimentData (period : Period) (awaited : Settled) : Eff unit :=
  fetchSentimentData_begin period ;;
  fetchSentimentData_resume period awaited.

(** The [catch (err: any)] block on any thrown value: [None] stands for
    [null] and [undefined], on which reading [err.message] raises a
    [TypeError] before anything else is done; [typeError] is that error,
    whatever the engine's wording. *)
Definition fetchSentimentData_catch_any
  (typeError : Err) (period : Period) (err : option Err) : Eff unit :=
  match err with
  | Some e => fetchSentimentData_catch period e
  | None => throw typeError
  end.

(** The continuation of [fetchSentimentData] when the awaited promise is
    rejected, with any reason: the [try] block has done nothing yet, the
    [catch] block runs on the reason and the [finally] block after it. *)
Definition fetchSentimentData_rejected
  (typeError : Err) (period : Period) (reason : option Err) : Eff unit :=
  finally (fetchSentimentData_catch_any typeError period reason)
          (setIsLoading false).

(** The world a computation leaves behind. *)
Definition exec {A : Type} (c : Eff A) (w : World) : World := fst (c w).

(** Whether a computation ends by throwing. *)
Definition throws {A : Type} (c : Eff A) (w : World) : bool :=
  match snd (c w) with
  | inl _ => true
  | inr _ => false
  end.

Local Close Scope eff_scope.

(* ================================================================== *)
(** ** Derived views *)
(* ================================================================== *)

(** An element of the array built by [getChartData]. *)
Module Point.
Record t : Type := mk {
  name : string;
  sentiment : Z
}.
End Point.

(** [getChartData]: three guarded [push] calls on an initially empty array. *)
Definition getChartData (s : State) : list Point.t :=
  let chartData : list Point.t := [] in
  let chartData :=
    match Data.sentiment24h (sentimentData s) with
    | Some r => chartData ++ [Point.mk "24h" (value r)]
    | None => chartData
    end in
  let chartData :=
    match Data.sentiment7d (sentimentData s) with
    | Some r => chartData ++ [Point.mk "7d" (value r)]
    | None => chartData
    end in
  let chartData :=
    match Data.sentiment30d (sentimentData s) with
    | Some r => chartData ++ [Point.mk "30d" (value r)]
    | None => chartData
    end in
  chartData.

(** [a || b] on optional objects. *)
Definition or_obj {A : Type} (a b : option A) : option A :=
  match a with
  | Some x => Some x
  | None => b
  end.

(** [const currentSentiment]. *)
Definition currentSentiment (s : State) : option SentimentData :=
  or_obj (Data.sentiment (sentimentData s))
         (if Period_eqb (timeframe s) P24h then Data.sentiment24h (sentimentData s)
          else if Period_eqb (timeframe s) P7d then Data.sentiment7d (sentimentData s)
          else Data.sentiment30d (sentimentData s)).

(* ================================================================== *)
(** ** The component on the event loop *)
(* ================================================================== *)

(** The component together with the requests it has sent: [issued] lists
    every request in the order of sending, numbered from 0, and [inflight]
    those whose promise has not settled yet.  The component itself keeps no
    such record; it belongs to the environment. *)
Record System : Type := mkSystem {
  world : World;
  inflight : list (nat * Period);
  issued : list (nat * Period)
}.

Inductive Event : Type :=
| Click (p : Period)                      (* a timeframe button *)
| Refresh                                 (* the refresh or retry button *)
| Settle (id : nat) (awaited : Settled).  (* a promise settles *)

(** A call of [fetchSentimentData(p)] up to its [await]. *)
Definition issue (p : Period) (sys : System) : System :=
  let id := length (issued sys) in
  {| world := exec (fetchSentimentData_begin p) (world sys);
     inflight := inflight sys ++ [(id, p)];
     issued := issued sys ++ [(id, p)] |}.

Fixpoint pendingPeriod (id : nat) (l : list (nat * Period)) : option Period :=
  match l with
  | [] => None
  | (j, p) :: l' => if Nat.eqb j id then Some p else pendingPeriod id l'
  end.

Definition dropRequest (id : nat) (l : list (nat * Period)) : list (nat * Period) :=
  filter (fun jp => negb (Nat.eqb (fst jp) id)) l.

(** One turn of the event loop.  A click on the button of the timeframe
    already selected changes no state, so the effect depending on
    [timeframe] does not run again; any other click runs it. *)
Definition handle (sys : System) (ev : Event) : System :=
  match ev with
  | Click p =>
      if Period_eqb p (timeframe (state (world sys))) then sys
      else issue p {| world := exec (setTimeframe p) (world sys);
                      inflight := inflight sys;
                      issued := issued sys |}
  | Refresh => issue (timeframe (state (world sys))) sys
  | Settle id awaited =>
      match pendingPeriod id (inflight sys) with
      | Some p =>
          {| world := exec (fetchSentimentData_resume p awaited) (world sys);
             inflight := dropRequest id (inflight sys);
             issued := issued sys |}
      | None => sys
      end
  end.

(** The component after mounting: the effect has run once, for ['24h']. *)
Definition mounted : System :=
  issue P24h {| world := {| state := initialState; toasts := [] |};
                inflight := [];
                issued := [] |}.

Definition run (trace : list Event) (sys : System) : System :=
  fold_left handle trace sys.

Inductive reachable : System -> Prop :=
| reachable_mounted : reachable mounted
| reachable_step sys ev : reachable sys -> reachable (handle sys ev).

(* ================================================================== *)
(** ** Classification of a settled request *)
(* ================================================================== *)

(** The three ways through [fetchSentimentData] after the [await]. *)
Inductive Branch : Type :=
| Live (data : Data.t)     (* the response is stored *)
| Unrecognized             (* no sentiment property: the [else] branch *)
| Failed (err : Err).      (* the [catch] block *)

Definition branchOf (awaited : Settled) : Branch :=
  match awaited with
  | Rejected reason => Failed reason
  | Fulfilled r =>
      match Invoke.error r with
      | Some error => Failed (mkErr (or_else (message error) "Failed to fetch market data"))
      | None =>
          match Invoke.data r with
          | None => Failed (mkErr nullDataMessage)
          | Some data =>
              match errorField data with
              | Some e => Failed (mkErr e)
              | None => if hasSentiment data then Live data else Unrecognized
              end
          end
      end
  end.

Definition isLive (b : Branch) : bool :=
  match b with
  | Live _ => true
  | _ => false
  end.

(** The state a settled request leaves, branch by branch. *)
Definition settledState (p : Period) (b : Branch) (s : State) : State :=
  match b with
  | Live data => mkState (timeframe s) false (error s) data
  | Unrecognized => mkState (timeframe s) false (error s) (mockTable p)
  | Failed err =>
      mkState (timeframe s) false
              (Some (or_else (message err) "Failed to fetch market sentiment"))
              (mockTable p)
  end.

(** The notifications a settled request emits, branch by branch. *)
Definition settledToasts (b : Branch) : list Toast :=
  match b with
  | Live _ => []
  | Unrecognized =>
      [toast_warning "Using simulated market data. Connect APIs for live data."]
  | Failed err =>
      [toast_error (String.append "Error loading market data: "
                                  (or_else (message err) "Unknown error"))]
  end.

(** A response that is fulfilled without error and carries [data]. *)
Definition ok (data : Data.t) : Settled :=
  Fulfilled {| Invoke.data := Some data; Invoke.error := None |}.

(** A response that is fulfilled with a transport error. *)
Definition transportError (msg : string) : Settled :=
  Fulfilled {| Invoke.data := None; Invoke.error := Some (mkErr msg) |}.

(* ================================================================== *)
(** ** Well-formedness of a record *)
(* ================================================================== *)

(** [tokens_over_1m <= tokens_over_100k <= tokens_launched]. *)
Definition countsOrdered (r : SentimentData) : bool :=
  ((tokens_over_1m r <=? tokens_over_100k r)
   && (tokens_over_100k r <=? tokens_launched r))%Z.

Definition percent (z : Z) : bool := ((0 <=? z) && (z <=? 100))%Z.

Definition wellFormed (p : Period) (r : SentimentData) : bool :=
  countsOrdered r
  && (0 <=? tokens_over_1m r)%Z
  && percent (value r)
  && percent (profitable_tokens_percent r)
  && String.eqb (period r) (periodName p).

(** The records an object carries, under any of its four properties. *)
Definition records (d : Data.t) : list SentimentData :=
  let opt (o : option SentimentData) :=
    match o with Some r => [r] | None => [] end in
  opt (Data.sentiment d) ++ opt (Data.sentiment24h d)
  ++ opt (Data.sentiment7d d) ++ opt (Data.sentiment30d d).

(* ================================================================== *)
(** ** The chart series as the specification words it *)
(* ================================================================== *)

Definition canonicalOrder : list Period := [P24h; P7d; P30d].

(** One point for a period that has a record, none otherwise. *)
Definition pointOf (d : Data.t) (p : Period) : list Point.t :=
  match Data.get p d with
  | Some r => [Point.mk (periodName p) (value r)]
  | None => []
  end.

(** [buildSeries]: the periods in canonical order, absent ones skipped. *)
Definition buildSeries (d : Data.t) : list Point.t :=
  flat_map (pointOf d) canonicalOrder.

(** A store filled by successive assignments, in the order of the list. *)
Definition assignAll (l : list (Period * SentimentData)) (d : Data.t) : Data.t :=
  fold_left (fun acc pr => Data.set (fst pr) (snd pr) acc) l d.

(** The record assigned last to a period, if any. *)
Fixpoint lastAssigned (p : Period) (l : list (Period * SentimentData))
  : option SentimentData :=
  match l with
  | [] => None
  | (q, r) :: l' =>
      match lastAssigned p l' with
      | Some r' => Some r'
      | None => if Period_eqb q p then Some r else None
      end
  end.

Definition withData (d : Data.t) (s : State) : State :=
  mkState (timeframe s) (isLoading s) (error s) d.

(* ================================================================== *)
(** ** Out-of-date requests *)
(* ================================================================== *)

(** Whether request [id], sent for period [p], is out of date: another
    period is selected by now, or a later request was sent for [p]. *)
Definition superseded (sys : System) (id : nat) (p : Period) : bool :=
  negb (Period_eqb p (timeframe (state (world sys))))
  || existsb (fun jq => Nat.ltb id (fst jq) && Period_eqb (snd jq) p) (issued sys).

(* ================================================================== *)
(** ** Sample inputs *)
(* ================================================================== *)

(** A record fetched live for the seven-day window. *)
Definition live7d : SentimentData :=
  {| period := "7d"; value := 10; sentiment := bearish;
     tokens_launched := 100; tokens_over_100k := 20; tokens_over_1m := 5;
     profitable_tokens_percent := 30 |}.

(** A record with more tokens above one million than above one hundred
    thousand. *)
Definition disordered24h : SentimentData :=
  {| period := "24h"; value := 50; sentiment := neutral;
     tokens_launched := 10; tokens_over_100k := 5; tokens_over_1m := 9;
     profitable_tokens_percent := 40 |}.

(** A response that carries only the record of the last day. *)
Definition only24h : Data.t :=
  {| Data.error := None; Data.sentiment := None;
     Data.sentiment24h := Some mockSentimentData.sentiment24h;
     Data.sentiment7d := None; Data.sentiment30d := None |}.

(** A response that carries only the record of the last seven days. *)
Definition only7d : Data.t :=
  {| Data.error := None; Data.sentiment := None;
     Data.sentiment24h := None;
     Data.sentiment7d := Some live7d; Data.sentiment30d := None |}.

(** A response with a record and an application error at once. *)
Definition errorAndRecord : Data.t :=
  {| Data.error := Some "rate limited"; Data.sentiment := None;
     Data.sentiment24h := Some mockSentimentData.sentiment24h;
     Data.sentiment7d := None; Data.sentiment30d := None |}.

(** A response whose only record has its counts out of order. *)
Definition disorderedData : Data.t :=
  {| Data.error := None; Data.sentiment := None;
     Data.sentiment24h := Some disordered24h;
     Data.sentiment7d := None; Data.sentiment30d := None |}.

(** A store that holds a live record for the seven-day window only. *)
Definition holding7d : World :=
  {| state := {| timeframe := P24h; isLoading := false; error := None;
                 sentimentData := only7d |};
     toasts := [] |}.

(** A store in which an earlier fetch left an error. *)
Definition afterFailure : World :=
  {| state := {| timeframe := P7d; isLoading := false;
                 error := Some "network timeout";
                 sentimentData := mockTable P24h |};
     toasts := [toast_error "Error loading market data: network timeout"] |}.

(** The user selected 7d while the first fetch was in flight, and the 7d
    request failed first. *)
Definition failedWhileWaiting : System :=
  run [Click P7d; Settle 1 (transportError "network timeout")] mounted.

(** The first fetch was rejected, then the user selected 7d. *)
Definition failedThenSelected7d : System :=
  run [Settle 0 (Rejected (mkErr "network timeout")); Click P7d] mounted.

(** The user selected 7d while the first fetch was in flight, and the 7d
    response arrived first. *)
Definition switchedTo7d : System :=
  run [Click P7d; Settle 1 (ok only7d)] mounted.

(** The user refreshed while the first fetch was in flight, and the
    response to the refresh arrived first. *)
Definition refreshedOnce : System :=
  run [Refresh; Settle 1 (ok only7d)] mounted.

(* ================================================================== *)
(** ** What the component renders *)
(* ================================================================== *)

(** The string a classification is at run time. *)
Definition sentimentName (c : Sentiment) : string :=
  match c with
  | bullish => "bullish"
  | bearish => "bearish"
  | neutral => "neutral"
  end.

(** [getSentimentColor]; the argument is optional. *)
Definition getSentimentColor (sentiment : option string) : string :=
  match sentiment with
  | Some s =>
      if String.eqb s "bullish" then "bg-green-500 text-green-50"
      else if String.eqb s "bearish" then "bg-red-500 text-red-50"
      else "bg-blue-500 text-blue-50"
  | None => "bg-blue-500 text-blue-50"
  end.

(** The three icons that [getSentimentIcon] chooses from. *)
Inductive IconKind : Type := TrendingUp | TrendingDown | Activity.

Record Icon : Type := mkIcon {
  iconKind : IconKind;
  iconClass : string
}.

(** [getSentimentIcon]. *)
Definition getSentimentIcon (sentiment : option string) : Icon :=
  match sentiment with
  | Some s =>
      if String.eqb s "bullish" then mkIcon TrendingUp "h-5 w-5 text-green-500"
      else if String.eqb s "bearish" then mkIcon TrendingDown "h-5 w-5 text-red-500"
      else mkIcon Activity "h-5 w-5 text-blue-500"
  | None => mkIcon Activity "h-5 w-5 text-blue-500"
  end.

(** The class of the round mark under "Market Status". *)
Definition statusDotClass (sentiment : string) : string :=
  String.append "w-3 h-3 rounded-full "
    (if String.eqb sentiment "bullish" then "bg-green-500"
     else if String.eqb sentiment "bearish" then "bg-red-500"
     else "bg-blue-500").

(** The words beside that mark. *)
Definition statusLabel (sentiment : string) : string :=
  if String.eqb sentiment "bullish" then "Bullish Market"
  else if String.eqb sentiment "bearish" then "Bearish Market"
  else "Neutral Market".

(** One of the three timeframe buttons. *)
Record ButtonView : Type := mkButtonView {
  variant : string;
  buttonClass : string
}.

(** The button of timeframe [b]: [variant] and [className] both test
    [timeframe === b]. *)
Definition timeframeButton (s : State) (b : Period) : ButtonView :=
  {| variant := if Period_eqb (timeframe s) b then "default" else "outline";
     buttonClass := if Period_eqb (timeframe s) b
                    then "bg-indigo-500 hover:bg-indigo-600"
                    else "hover:bg-white/5" |}.

(** The badge and the score under the title, rendered when
    [!isLoading && currentSentiment]. *)
Record HeaderView : Type := mkHeaderView {
  badgeClass : string;
  badgeOf : Sentiment;     (* shown in upper case *)
  scoreShown : Z           (* "Score: .../100" *)
}.

Definition header (s : State) : option HeaderView :=
  if negb (isLoading s) then
    match currentSentiment s with
    | Some r =>
        Some {| badgeClass := getSentimentColor (Some (sentimentName (sentiment r)));
                badgeOf := sentiment r;
                scoreShown := value r |}
    | None => None
    end
  else None.

(** The fragment rendered when there is a current record. *)
Record DashboardView : Type := mkDashboardView {
  tokensLaunched : Z;
  tokensOver100k : Z;
  tokensOver1m : Z;
  chart : list Point.t;
  insightsIcon : Icon;
  profitablePercent : Z;
  marketDot : string;
  marketLabel : string
}.

Definition dashboard (s : State) (r : SentimentData) : DashboardView :=
  {| tokensLaunched := tokens_launched r;
     tokensOver100k := tokens_over_100k r;
     tokensOver1m := tokens_over_1m r;
     chart := getChartData s;
     insightsIcon := getSentimentIcon (Some (sentimentName (sentiment r)));
     profitablePercent := profitable_tokens_percent r;
     marketDot := statusDotClass (sentimentName (sentiment r));
     marketLabel := statusLabel (sentimentName (sentiment r)) |}.

(** The four alternatives of the card content. *)
Inductive Panel : Type :=
| LoadingPanel                       (* "Loading sentiment data..." *)
| ErrorPanel (text : string)         (* "Data Fetch Error", "Try Again" *)
| DashboardPanel (v : DashboardView)
| NoDataPanel.                       (* "No sentiment data available" *)

(** [error] as a condition: set and not the empty string. *)
Definition errorShown (s : State) : option string :=
  match error s with
  | Some e => if truthy e then Some e else None
  | None => None
  end.

(** The chain [isLoading ? ... : error && !currentSentiment ? ... :
    currentSentiment ? ... : ...] of the card content. *)
Definition content (s : State) : Panel :=
  if isLoading s then LoadingPanel
  else
    match errorShown s, currentSentiment s with
    | Some e, None => ErrorPanel e
    | _, Some r => DashboardPanel (dashboard s r)
    | None, None => NoDataPanel
    end.

(** The chart of the static fallback table. *)
Definition mockChart : list Point.t :=
  [Point.mk "24h" (value mockSentimentData.sentiment24h);
   Point.mk "7d" (value mockSentimentData.sentiment7d);
   Point.mk "30d" (value mockSentimentData.sentiment30d)].

(** A response that carries a single-period record and nothing else. *)
Definition singlePeriod (r : SentimentData) : Data.t :=
  {| Data.error := None; Data.sentiment := Some r;
     Data.sentiment24h := None; Data.sentiment7d := None;
     Data.sentiment30d := None |}.

(** Two requests for 24h in flight; the newer one failed, then the older one
    was answered with the 7d record only. *)
Definition failedThenForeignRecord : System :=
  run [Refresh; Settle 1 (transportError "network timeout");
       Settle 0 (ok only7d)] mounted.

(* ================================================================== *)
(** ** The monad computes *)
(* ================================================================== *)

Lemma or_else_truthy (s d : string) :
  truthy d = true -> truthy (or_else s d) = true.
Proof.
  intros Hd. unfold or_else. destruct (truthy s) eqn:Hs; assumption.
Qed.

Lemma or_else_id (s d : string) : truthy s = true -> or_else s d = s.
Proof. intros Hs. unfold or_else. now rewrite Hs. Qed.

Lemma Period_eqb_eq (p q : Period) : Period_eqb p q = true <-> p = q.
Proof. destruct p, q; simpl; split; intros H; congruence. Qed.

Lemma Period_eqb_refl (p : Period) : Period_eqb p p = true.
Proof. now destruct p. Qed.

Lemma errorField_truthy (d : Data.t) (e : string) :
  errorField d = Some e -> truthy e = true.
Proof.
  unfold errorField. destruct (Data.error d) as [s|]; [|discriminate].
  destruct (truthy s) eqn:Hs; [|discriminate].
  intros H. injection H as <-. exact Hs.
Qed.

(** The continuation after the [await] does what the branch taken says and
    never lets an exception escape. *)
Lemma fetchSentimentData_resume_spec (p : Period) (awaited : Settled) (w : World) :
  fetchSentimentData_resume p awaited w
  = ({| state := settledState p (branchOf awaited) (state w);
        toasts := toasts w ++ settledToasts (branchOf awaited) |}, inr tt).
Proof.
  destruct w as [s ts].
  destruct awaited as [reason | [data err]]; [reflexivity|].
  destruct err as [e|]; [reflexivity|].
  destruct data as [d|]; [|reflexivity].
  unfold fetchSentimentData_resume, finally, try_catch, fetchSentimentData_try,
    branchOf; simpl.
  destruct (errorField d) as [e|]; [reflexivity|].
  destruct (hasSentiment d); simpl; [|reflexivity].
  now rewrite app_nil_r.
Qed.

(** A whole call: the prefix clears the error and raises the loading flag,
    then the continuation runs. *)
Lemma fetchSentimentData_spec (p : Period) (awaited : Settled) (w : World) :
  fetchSentimentData p awaited w
  = ({| state := settledState p (branchOf awaited)
                   (mkState (timeframe (state w)) true None (sentimentData (state w)));
        toasts := toasts w ++ settledToasts (branchOf awaited) |}, inr tt).
Proof.
  unfold fetchSentimentData, bind.
  unfold fetchSentimentData_begin, bind, setIsLoading, setError, modifyState.
  now rewrite fetchSentimentData_resume_spec.
Qed.

(** No exception leaves [fetchSentimentData]. *)
Lemma fetchSentimentData_total (p : Period) (awaited : Settled) (w : World) :
  throws (fetchSentimentData p awaited) w = false.
Proof. unfold throws. now rewrite fetchSentimentData_spec. Qed.

Lemma exec_fetchSentimentData (p : Period) (awaited : Settled) (w : World) :
  exec (fetchSentimentData p awaited) w
  = {| state := settledState p (branchOf awaited)
                  (mkState (timeframe (state w)) true None (sentimentData (state w)));
       toasts := toasts w ++ settledToasts (branchOf awaited) |}.
Proof. unfold exec. now rewrite fetchSentimentData_spec. Qed.

Lemma exec_fetchSentimentData_resume (p : Period) (awaited : Settled) (w : World) :
  exec (fetchSentimentData_resume p awaited) w
  = {| state := settledState p (branchOf awaited) (state w);
       toasts := toasts w ++ settledToasts (branchOf awaited) |}.
Proof. unfold exec. now rewrite fetchSentimentData_resume_spec. Qed.

Lemma branchOf_ok (data : Data.t) :
  branchOf (ok data)
  = match errorField data with
    | Some e => Failed (mkErr e)
    | None => if hasSentiment data then Live data else Unrecognized
    end.
Proof. reflexivity. Qed.

(* ================================================================== *)
(** ** The static fallback dataset *)
(* ================================================================== *)

(** C10: every record of the static fallback dataset has its token counts
    in order ([tokens_over_1m <= tokens_over_100k <= tokens_launched]), a
    score and a profitable percentage between 0 and 100, and the period
    label of its key; the table substituted on a fallback holds exactly
    these records, so a fallback always yields well-formed data. *)
Theorem mockSentimentData_wellFormed :
  (forall p : Period,
     let r := mockSentimentData.get p in
     (tokens_over_1m r <= tokens_over_100k r <= tokens_launched r)%Z
     /\ (0 <= value r <= 100)%Z
     /\ (0 <= profitable_tokens_percent r <= 100)%Z
     /\ period r = periodName p)
  /\ (forall p q : Period,
        Data.get q (mockTable p) = Some (mockSentimentData.get q)
        /\ wellFormed q (mockSentimentData.get q) = true)
  /\ (forall p : Period,
        Data.sentiment (mockTable p) = Some (mockSentimentData.get p)
        /\ forallb (fun r => existsb (fun q => wellFormed q r) canonicalOrder)
                   (records (mockTable p)) = true).
Proof.
  split; [|split].
  - intros p; destruct p; cbn; repeat split; lia.
  - intros p q; destruct p, q; split; reflexivity.
  - intros p; destruct p; split; reflexivity.
Qed.

(* ================================================================== *)
(** ** The chart series *)
(* ================================================================== *)

Lemma Data_get_set (p q : Period) (r : SentimentData) (d : Data.t) :
  Data.get p (Data.set q r d) = if Period_eqb q p then Some r else Data.get p d.
Proof. destruct p, q; reflexivity. Qed.

Lemma Data_get_assignAll (p : Period) (l : list (Period * SentimentData)) :
  forall d : Data.t,
    Data.get p (assignAll l d) = or_obj (lastAssigned p l) (Data.get p d).
Proof.
  induction l as [|[q r] l IH]; intros d.
  - reflexivity.
  - change (assignAll ((q, r) :: l) d) with (assignAll l (Data.set q r d)).
    rewrite IH, Data_get_set. simpl.
    destruct (lastAssigned p l) as [r'|]; [reflexivity|].
    destruct (Period_eqb q p); reflexivity.
Qed.

Lemma getChartData_buildSeries (s : State) :
  getChartData s = buildSeries (sentimentData s).
Proof.
  unfold getChartData, buildSeries, canonicalOrder, pointOf. simpl.
  destruct (Data.sentiment24h (sentimentData s)),
           (Data.sentiment7d (sentimentData s)),
           (Data.sentiment30d (sentimentData s)); reflexivity.
Qed.

(** The series depends on the three per-period records only. *)
Lemma buildSeries_ext (d d' : Data.t) :
  (forall p, Data.get p d = Data.get p d') -> buildSeries d = buildSeries d'.
Proof.
  intros H. unfold buildSeries, canonicalOrder, pointOf. cbn [flat_map].
  now rewrite (H P24h), (H P7d), (H P30d).
Qed.

(** C7: [getChartData] returns one point (label and score) for each period
    that has a record, in the fixed order 24h, 7d, 30d, and skips the
    periods that have none, so the series has between 0 and 3 points; when
    the records were assigned one after another, in whatever order, the
    series is still in that fixed order and shows the record assigned last
    to each period. *)
Theorem getChartData_canonical_order :
  (forall s : State,
     getChartData s = flat_map (pointOf (sentimentData s)) [P24h; P7d; P30d]
     /\ map Point.name (getChartData s)
        = map periodName
              (filter (fun p => present (Data.get p (sentimentData s)))
                      [P24h; P7d; P30d])
     /\ length (getChartData s)
        = length (filter (fun p => present (Data.get p (sentimentData s)))
                         [P24h; P7d; P30d])
     /\ (length (getChartData s) <= 3)%nat)
  /\ (forall (l : list (Period * SentimentData)) (s : State),
        getChartData (withData (assignAll l Data.empty) s)
        = flat_map (fun p => match lastAssigned p l with
                             | Some r => [Point.mk (periodName p) (value r)]
                             | None => []
                             end)
                   [P24h; P7d; P30d]).
Proof.
  split.
  - intros s. split; [apply getChartData_buildSeries|].
    unfold getChartData. simpl.
    destruct (Data.sentiment24h (sentimentData s)),
             (Data.sentiment7d (sentimentData s)),
             (Data.sentiment30d (sentimentData s)); simpl; repeat split; lia.
  - intros l s. rewrite getChartData_buildSeries.
    unfold withData; cbn [sentimentData].
    unfold buildSeries, canonicalOrder, pointOf. cbn [flat_map].
    rewrite !Data_get_assignAll.
    destruct (lastAssigned P24h l), (lastAssigned P7d l), (lastAssigned P30d l);
      reflexivity.
Qed.

(* ================================================================== *)
(** ** The current record *)
(* ================================================================== *)

(** C8, as stated, fails: after a failed first fetch the user selects 7d;
    the current record is then the fallback record of 24h, not the record
    stored under 7d. *)
Lemma currentSentiment_other_period :
  timeframe (state (world failedThenSelected7d)) = P7d
  /\ Data.get P7d (sentimentData (state (world failedThenSelected7d)))
     = Some mockSentimentData.sentiment7d
  /\ currentSentiment (state (world failedThenSelected7d))
     = Some mockSentimentData.sentiment24h
  /\ mockSentimentData.sentiment24h <> mockSentimentData.sentiment7d.
Proof. repeat split; discriminate. Qed.

(** C8 (amended): [currentSentiment] is the single-period [sentiment] object
    whenever the store holds one, whatever period is selected; only when
    there is none is it the record stored under the selected period, and
    [undefined] when that is absent too. *)
Theorem currentSentiment_spec :
  forall s : State,
    currentSentiment s
    = match Data.sentiment (sentimentData s) with
      | Some r => Some r
      | None => Data.get (timeframe s) (sentimentData s)
      end.
Proof.
  intros s. unfold currentSentiment, or_obj.
  destruct (Data.sentiment (sentimentData s)); [reflexivity|].
  destruct (timeframe s); reflexivity.
Qed.

(* ================================================================== *)
(** ** A response that is stored *)
(* ================================================================== *)

(** The clearing is done before the [await]: the continuation itself leaves
    the error as it finds it on the live branch. *)
Lemma fetchSentimentData_resume_live_keeps_error
  (w : World) (p : Period) (awaited : Settled) (data : Data.t) :
  branchOf awaited = Live data ->
  error (state (exec (fetchSentimentData_resume p awaited) w)) = error (state w).
Proof.
  intros Hb. now rewrite exec_fetchSentimentData_resume, Hb.
Qed.

(** C9, as stated, fails: the first request, for 24h, is in flight when the
    user selects 7d; the 7d request fails and sets the error; then the live
    response of the 24h request arrives and is stored, and the error set by
    the resolve for the other period is still there.  Also, a live response
    that carries a record for another period only stores nothing under the
    period of the request. *)
Lemma live_resolution_keeps_error :
  (pendingPeriod 0 (inflight failedWhileWaiting) = Some P24h
   /\ error (state (world failedWhileWaiting)) = Some "network timeout"
   /\ isLive (branchOf (ok only24h)) = true
   /\ sentimentData (state (world (handle failedWhileWaiting (Settle 0 (ok only24h)))))
      = only24h
   /\ error (state (world (handle failedWhileWaiting (Settle 0 (ok only24h)))))
      = Some "network timeout")
  /\ (isLive (branchOf (ok only7d)) = true
      /\ Data.get P24h (sentimentData (state
           (exec (fetchSentimentData P24h (ok only7d)) afterFailure))) = None).
Proof. repeat split. Qed.

(** C9 (amended): a whole call of [fetchSentimentData] that ends on the
    live branch, with nothing else settling between its start and its
    response, leaves the error unset whatever the state before (also one
    with an error left by a resolve for another period), because the error
    is cleared before the [await].  The live continuation itself never
    changes the error: it leaves it as it finds it.  Either way the store
    becomes the response as a whole, so under each period it holds exactly
    what the response carries under that key, nothing when the response
    carries none; loading ends and no notification is emitted. *)
Theorem live_resolution_error_and_store :
  forall (w : World) (p : Period) (awaited : Settled) (data : Data.t),
    branchOf awaited = Live data ->
    (let w1 := exec (fetchSentimentData_resume p awaited) w in
     error (state w1) = error (state w)
     /\ sentimentData (state w1) = data
     /\ (forall q : Period,
           Data.get q (sentimentData (state w1)) = Data.get q data)
     /\ isLoading (state w1) = false
     /\ toasts w1 = toasts w)
    /\ (let w2 := exec (fetchSentimentData p awaited) w in
        error (state w2) = None
        /\ sentimentData (state w2) = data
        /\ (forall q : Period,
              Data.get q (sentimentData (state w2)) = Data.get q data)
        /\ currentSentiment (state w2)
           = match Data.sentiment data with
             | Some r => Some r
             | None => Data.get (timeframe (state w)) data
             end
        /\ isLoading (state w2) = false
        /\ toasts w2 = toasts w).
Proof.
  intros w p awaited data Hb. split.
  - rewrite exec_fetchSentimentData_resume, Hb. cbn [state toasts settledState
      settledToasts error sentimentData isLoading].
    repeat split. apply app_nil_r.
  - rewrite exec_fetchSentimentData, Hb. cbn [state toasts settledState
      settledToasts error sentimentData isLoading].
    split; [reflexivity|]. split; [reflexivity|]. split; [reflexivity|].
    split; [|split; [reflexivity | apply app_nil_r]].
    unfold currentSentiment, or_obj. cbn [sentimentData timeframe].
    destruct (Data.sentiment data); [reflexivity|].
    destruct (timeframe (state w)); reflexivity.
Qed.

(** C9 (amended) at a store whose error was set by an earlier failure. *)
Lemma live_resolution_error_and_store_witness :
  error (state afterFailure) = Some "network timeout"
  /\ (let w1 := exec (fetchSentimentData_resume P7d (ok only7d)) afterFailure in
      error (state w1) = error (state afterFailure)
      /\ sentimentData (state w1) = only7d
      /\ (forall q : Period,
            Data.get q (sentimentData (state w1)) = Data.get q only7d)
      /\ isLoading (state w1) = false
      /\ toasts w1 = toasts afterFailure)
  /\ (let w2 := exec (fetchSentimentData P7d (ok only7d)) afterFailure in
      error (state w2) = None
      /\ sentimentData (state w2) = only7d
      /\ (forall q : Period,
            Data.get q (sentimentData (state w2)) = Data.get q only7d)
      /\ currentSentiment (state w2)
         = match Data.sentiment only7d with
           | Some r => Some r
           | None => Data.get (timeframe (state afterFailure)) only7d
           end
      /\ isLoading (state w2) = false
      /\ toasts w2 = toasts afterFailure).
Proof.
  split; [reflexivity|].
  apply (live_resolution_error_and_store afterFailure P7d (ok only7d) only7d).
  reflexivity.
Defined.

(* ================================================================== *)
(** ** What a fetch does to the records of the other periods *)
(* ================================================================== *)

(** C1, as stated, fails: the store holds a live record for 7d; a fetch for
    24h whose response carries the 24h record only leaves no record under
    7d. *)
Lemma fetch_discards_other_period :
  Data.get P7d (sentimentData (state holding7d)) = Some live7d
  /\ isLive (branchOf (ok only24h)) = true
  /\ Data.get P7d (sentimentData (state
       (exec (fetchSentimentData P24h (ok only24h)) holding7d))) = None.
Proof. repeat split. Qed.

(** C1 (amended): a fetch for a period replaces the stored object as a
    whole.  After a live resolution the record under any period is the one
    the response carries under it (none when the response carries none);
    after a fallback it is the static fallback record of that period.
    Selecting a period, by itself, changes no record. *)
Theorem fetch_replaces_store :
  (forall (w : World) (p q : Period) (awaited : Settled),
     Data.get q (sentimentData (state (exec (fetchSentimentData p awaited) w)))
     = match branchOf awaited with
       | Live data => Data.get q data
       | Unrecognized | Failed _ => Some (mockSentimentData.get q)
       end)
  /\ (forall (w : World) (p : Period),
        sentimentData (state (exec (setTimeframe p) w)) = sentimentData (state w)).
Proof.
  split.
  - intros w p q awaited. rewrite exec_fetchSentimentData.
    destruct (branchOf awaited); simpl; try reflexivity; destruct p, q; reflexivity.
  - reflexivity.
Qed.

(** C3, as stated, fails: the store holds a live record for 7d; a fetch for
    24h that is rejected overwrites it with the static 7d record. *)
Lemma fallback_overwrites_other_period :
  Data.get P7d (sentimentData (state holding7d)) = Some live7d
  /\ isLive (branchOf (Rejected (mkErr "network timeout"))) = false
  /\ Data.get P7d (sentimentData (state
       (exec (fetchSentimentData P24h (Rejected (mkErr "network timeout")))
             holding7d)))
     = Some mockSentimentData.sentiment7d
  /\ mockSentimentData.sentiment7d <> live7d.
Proof. repeat split; discriminate. Qed.

(** C3 (amended): a fallback for a period stores the static fallback record
    of that period as the single-period record and the static fallback
    records of all three periods under their keys, whether or not a period
    already held a record: every earlier record is overwritten. *)
Theorem fallback_stores_whole_table :
  forall (w : World) (p : Period) (awaited : Settled),
    isLive (branchOf awaited) = false ->
    let d' := sentimentData (state (exec (fetchSentimentData p awaited) w)) in
    d' = mockTable p
    /\ Data.sentiment d' = Some (mockSentimentData.get p)
    /\ forall q : Period, Data.get q d' = Some (mockSentimentData.get q).
Proof.
  intros w p awaited Hb d'. subst d'.
  rewrite exec_fetchSentimentData.
  destruct (branchOf awaited); [discriminate Hb| |]; simpl;
    (split; [reflexivity|split; [reflexivity|intros q; destruct q; reflexivity]]).
Qed.

(** C3 (amended) at a store that holds a live 7d record. *)
Lemma fallback_stores_whole_table_witness :
  Data.get P7d (sentimentData (state holding7d)) = Some live7d
  /\ let d' := sentimentData (state (exec (fetchSentimentData P24h
                 (Rejected (mkErr "network timeout"))) holding7d)) in
     d' = mockTable P24h
     /\ Data.sentiment d' = Some (mockSentimentData.get P24h)
     /\ forall q : Period, Data.get q d' = Some (mockSentimentData.get q).
Proof.
  split; [reflexivity|].
  apply (fallback_stores_whole_table holding7d P24h
           (Rejected (mkErr "network timeout"))).
  reflexivity.
Defined.

(* ================================================================== *)
(** ** The error left by a fallback *)
(* ================================================================== *)



(* ================================================================== *)
(** ** Which branch a response takes *)
(* ================================================================== *)

(** C5, as stated, fails: a response that carries the 24h record together
    with an [error] field is not live; the error wins. *)
Lemma error_field_overrides_record :
  hasSentiment errorAndRecord = true
  /\ Data.sentiment24h errorAndRecord = Some mockSentimentData.sentiment24h
  /\ isLive (branchOf (ok errorAndRecord)) = false
  /\ branchOf (ok errorAndRecord) = Failed (mkErr "rate limited")
  /\ error (state (exec (fetchSentimentData P24h (ok errorAndRecord)) holding7d))
     = Some "rate limited".
Proof. repeat split. Qed.

(** C5 (amended): the outcome is live exactly when the request is fulfilled
    without a transport error and its payload has no (non-empty) [error]
    field and contains at least one of [sentiment], [sentiment24h],
    [sentiment7d], [sentiment30d]; a payload with neither an error nor any
    of the four takes the unrecognized-format fallback, which stores the
    fallback table and emits a warning; a transport error and an
    application error carrying the same message leave the same state and
    the same notification, so they differ by message text only. *)
Theorem branchOf_spec :
  (forall awaited : Settled,
     isLive (branchOf awaited) = true
     <-> exists data,
           awaited = ok data /\ errorField data = None
           /\ hasSentiment data = true)
  /\ (forall (w : World) (p : Period) (data : Data.t),
        errorField data = None ->
        hasSentiment data = false ->
        branchOf (ok data) = Unrecognized
        /\ exec (fetchSentimentData_resume p (ok data)) w
           = {| state := mkState (timeframe (state w)) false (error (state w))
                                 (mockTable p);
                toasts := toasts w
                  ++ [toast_warning
                        "Using simulated market data. Connect APIs for live data."] |})
  /\ (forall (w : World) (p : Period) (msg : string) (d : option Data.t)
             (data : Data.t),
        errorField data = Some msg ->
        branchOf (Fulfilled {| Invoke.data := d; Invoke.error := Some (mkErr msg) |})
        = Failed (mkErr msg)
        /\ branchOf (ok data) = Failed (mkErr msg)
        /\ exec (fetchSentimentData_resume p
                   (Fulfilled {| Invoke.data := d; Invoke.error := Some (mkErr msg) |})) w
           = exec (fetchSentimentData_resume p (ok data)) w).
Proof.
  split; [|split].
  - intros awaited. split.
    + destruct awaited as [reason | [[data|] [e|]]]; simpl; try discriminate.
      destruct (errorField data) eqn:He; simpl; [discriminate|].
      destruct (hasSentiment data) eqn:Hs; simpl; [|discriminate].
      intros _. exists data. repeat split; assumption.
    + intros [data [-> [He Hs]]]. rewrite branchOf_ok, He, Hs. reflexivity.
  - intros w p data He Hs.
    assert (Hb : branchOf (ok data) = Unrecognized)
      by now rewrite branchOf_ok, He, Hs.
    split; [exact Hb|].
    rewrite exec_fetchSentimentData_resume, Hb. reflexivity.
  - intros w p msg d data He.
    assert (Hb1 : branchOf (Fulfilled {| Invoke.data := d;
                                         Invoke.error := Some (mkErr msg) |})
                  = Failed (mkErr msg)).
    { simpl. now rewrite (or_else_id _ _ (errorField_truthy _ _ He)). }
    assert (Hb2 : branchOf (ok data) = Failed (mkErr msg))
      by now rewrite branchOf_ok, He.
    split; [exact Hb1|]. split; [exact Hb2|].
    now rewrite !exec_fetchSentimentData_resume, Hb1, Hb2.
Qed.

(** C5 (amended) at the empty payload and at the message ["rate limited"]. *)
Lemma branchOf_spec_witness :
  (branchOf (ok Data.empty) = Unrecognized
   /\ exec (fetchSentimentData_resume P30d (ok Data.empty)) holding7d
      = {| state := mkState (timeframe (state holding7d)) false
                            (error (state holding7d)) (mockTable P30d);
           toasts := toasts holding7d
             ++ [toast_warning
                   "Using simulated market data. Connect APIs for live data."] |})
  /\ (branchOf (Fulfilled {| Invoke.data := None;
                             Invoke.error := Some (mkErr "rate limited") |})
      = Failed (mkErr "rate limited")
      /\ branchOf (ok errorAndRecord) = Failed (mkErr "rate limited")
      /\ exec (fetchSentimentData_resume P24h
                 (Fulfilled {| Invoke.data := None;
                               Invoke.error := Some (mkErr "rate limited") |}))
              holding7d
         = exec (fetchSentimentData_resume P24h (ok errorAndRecord)) holding7d).
Proof.
  split.
  - apply (proj1 (proj2 branchOf_spec) holding7d P30d Data.empty);
      reflexivity.
  - apply (proj2 (proj2 branchOf_spec) holding7d P24h "rate limited" None
             errorAndRecord).
    reflexivity.
Defined.

(* ================================================================== *)
(** ** No validation of the token counts *)
(* ================================================================== *)

Lemma records_hasSentiment (data : Data.t) (r : SentimentData) :
  In r (records data) -> hasSentiment data = true.
Proof.
  unfold records, hasSentiment.
  destruct (Data.sentiment data), (Data.sentiment24h data),
           (Data.sentiment7d data), (Data.sentiment30d data);
    simpl; intros H; try reflexivity; contradiction.
Qed.

(** C6, as stated, fails: a response whose 24h record has 9 tokens above one
    million and 5 above one hundred thousand is stored as it is, with no
    error and no notification. *)
Lemma disordered_counts_accepted :
  countsOrdered disordered24h = false
  /\ (tokens_over_1m disordered24h > tokens_over_100k disordered24h)%Z
  /\ isLive (branchOf (ok disorderedData)) = true
  /\ Data.sentiment24h (sentimentData (state
       (exec (fetchSentimentData P24h (ok disorderedData)) holding7d)))
     = Some disordered24h
  /\ error (state (exec (fetchSentimentData P24h (ok disorderedData)) holding7d))
     = None
  /\ toasts (exec (fetchSentimentData P24h (ok disorderedData)) holding7d)
     = toasts holding7d.
Proof. repeat split. Qed.

(** C6 (amended): the token counts are not validated.  A payload without an
    error field is accepted as live whatever the counts of its records:
    every record it carries, also one with [tokens_over_1m] above
    [tokens_over_100k], is in the store afterwards, no error is set and no
    notification is emitted. *)
Theorem live_accepts_any_counts :
  forall (w : World) (p : Period) (data : Data.t) (r : SentimentData),
    errorField data = None ->
    In r (records data) ->
    let w' := exec (fetchSentimentData p (ok data)) w in
    branchOf (ok data) = Live data
    /\ sentimentData (state w') = data
    /\ In r (records (sentimentData (state w')))
    /\ error (state w') = None
    /\ toasts w' = toasts w.
Proof.
  intros w p data r He Hin w'. subst w'.
  assert (Hb : branchOf (ok data) = Live data).
  { rewrite branchOf_ok, He. now rewrite (records_hasSentiment data r Hin). }
  rewrite exec_fetchSentimentData, Hb. simpl.
  split; [reflexivity|]. split; [reflexivity|]. split; [exact Hin|].
  split; [reflexivity|]. apply app_nil_r.
Qed.

(** C6 (amended) at a record whose counts are out of order. *)
Lemma live_accepts_any_counts_witness :
  countsOrdered disordered24h = false
  /\ let w' := exec (fetchSentimentData P24h (ok disorderedData)) holding7d in
     branchOf (ok disorderedData) = Live disorderedData
     /\ sentimentData (state w') = disorderedData
     /\ In disordered24h (records (sentimentData (state w')))
     /\ error (state w') = None
     /\ toasts w' = toasts holding7d.
Proof.
  split; [reflexivity|].
  apply (live_accepts_any_counts holding7d P24h disorderedData disordered24h).
  - reflexivity.
  - left; reflexivity.
Defined.

(* ================================================================== *)
(** ** Responses that arrive out of order *)
(* ================================================================== *)

Lemma run_app (t1 t2 : list Event) (sys : System) :
  run (t1 ++ t2) sys = run t2 (run t1 sys).
Proof. apply fold_left_app. Qed.

Lemma reachable_run (trace : list Event) :
  forall sys : System, reachable sys -> reachable (run trace sys).
Proof.
  induction trace as [|ev trace IH]; intros sys Hsys.
  - exact Hsys.
  - apply IH. now apply reachable_step.
Qed.

Lemma pendingPeriod_In (id : nat) (p : Period) (l : list (nat * Period)) :
  pendingPeriod id l = Some p -> In (id, p) l.
Proof.
  induction l as [|[j q] l IH]; simpl; [discriminate|].
  destruct (Nat.eqb_spec j id) as [->|Hne].
  - intros H. injection H as ->. now left.
  - intros H. right. now apply IH.
Qed.

Lemma In_dropRequest (id : nat) (x : nat * Period) (l : list (nat * Period)) :
  In x (dropRequest id l) -> In x l.
Proof. unfold dropRequest. intros H. now apply filter_In in H. Qed.

(** The requests in flight are requests that were sent, and the requests
    sent are numbered in order, from 0. *)
Lemma reachable_requests (sys : System) :
  reachable sys ->
  (forall x, In x (inflight sys) -> In x (issued sys))
  /\ map fst (issued sys) = seq 0 (length (issued sys)).
Proof.
  assert (Hissue : forall p s,
    (forall x, In x (inflight s) -> In x (issued s))
    /\ map fst (issued s) = seq 0 (length (issued s)) ->
    (forall x, In x (inflight (issue p s)) -> In x (issued (issue p s)))
    /\ map fst (issued (issue p s)) = seq 0 (length (issued (issue p s)))).
  { intros p s [Hin Hseq]. simpl. split.
    - intros x Hx. apply in_app_iff. apply in_app_iff in Hx.
      destruct Hx as [Hx|Hx]; [left; now apply Hin | now right].
    - rewrite map_app, length_app, Hseq. simpl.
      now rewrite seq_app. }
  induction 1 as [|sys ev Hsys IH].
  - split; [intros x Hx; exact Hx | reflexivity].
  - destruct ev as [p | | id awaited]; simpl.
    + destruct (Period_eqb p (timeframe (state (world sys)))); [exact IH|].
      apply Hissue. exact IH.
    + apply Hissue. exact IH.
    + destruct (pendingPeriod id (inflight sys)); [|exact IH].
      destruct IH as [Hin Hseq]. simpl. split; [|exact Hseq].
      intros x Hx. apply Hin. now apply In_dropRequest in Hx.
Qed.

(** C2, as stated, fails: the component mounts (request 0, for 24h), the
    user selects 7d (request 1), the response of request 1 arrives and is
    stored; then the response of request 0 arrives, although 7d is selected,
    and replaces it.  Likewise after a refresh: the response of the older
    request for the same period replaces that of the newer one. *)
Lemma stale_response_overwrites :
  (pendingPeriod 0 (inflight switchedTo7d) = Some P24h
   /\ timeframe (state (world switchedTo7d)) = P7d
   /\ superseded switchedTo7d 0 P24h = true
   /\ sentimentData (state (world switchedTo7d)) = only7d
   /\ sentimentData (state (world (handle switchedTo7d (Settle 0 (ok only24h)))))
      = only24h
   /\ only24h <> only7d)
  /\ (pendingPeriod 0 (inflight refreshedOnce) = Some P24h
      /\ issued refreshedOnce = [(0%nat, P24h); (1%nat, P24h)]
      /\ superseded refreshedOnce 0 P24h = true
      /\ sentimentData (state (world refreshedOnce)) = only7d
      /\ sentimentData (state (world (handle refreshedOnce (Settle 0 (ok only24h)))))
         = only24h).
Proof. repeat split; discriminate. Qed.

(** C2 (amended): no response is checked for staleness.  Whenever the
    response of a request in flight arrives, the continuation of that
    request runs on the current state: the store becomes the payload of the
    response (live) or the fallback table of the period the request was sent
    for (fallback), whatever period is selected by then and whether or not a
    later request was sent; the selected period is left as it is.  The store
    shows the response that arrived last. *)
Theorem settle_always_writes :
  forall (trace : list Event) (id : nat) (p : Period) (awaited : Settled),
    let sys := run trace mounted in
    pendingPeriod id (inflight sys) = Some p ->
    let sys' := handle sys (Settle id awaited) in
    world sys' = exec (fetchSentimentData_resume p awaited) (world sys)
    /\ sentimentData (state (world sys'))
       = match branchOf awaited with
         | Live data => data
         | Unrecognized | Failed _ => mockTable p
         end
    /\ timeframe (state (world sys')) = timeframe (state (world sys))
    /\ In (id, p) (issued sys).
Proof.
  intros trace id p awaited sys Hp sys'. subst sys'.
  simpl. rewrite Hp. simpl.
  split; [reflexivity|].
  rewrite exec_fetchSentimentData_resume.
  split; [destruct (branchOf awaited); reflexivity|].
  split; [destruct (branchOf awaited); reflexivity|].
  apply (reachable_requests sys).
  - apply reachable_run, reachable_mounted.
  - now apply pendingPeriod_In.
Qed.

(** C2 (amended) at the response of the first request arriving after the
    user moved to 7d and the 7d response was stored. *)
Lemma settle_always_writes_witness :
  pendingPeriod 0 (inflight (run [Click P7d; Settle 1 (ok only7d)] mounted))
  = Some P24h
  /\ let sys := run [Click P7d; Settle 1 (ok only7d)] mounted in
     let sys' := handle sys (Settle 0 (ok only24h)) in
     world sys' = exec (fetchSentimentData_resume P24h (ok only24h)) (world sys)
     /\ sentimentData (state (world sys'))
        = match branchOf (ok only24h) with
          | Live data => data
          | Unrecognized | Failed _ => mockTable P24h
          end
     /\ timeframe (state (world sys')) = timeframe (state (world sys))
     /\ In (0%nat, P24h) (issued sys).
Proof.
  split; [reflexivity|].
  apply (settle_always_writes [Click P7d; Settle 1 (ok only7d)] 0%nat P24h
           (ok only24h)).
  reflexivity.
Defined.

(* ================================================================== *)
(** ** The scenarios of the specification, run on the component *)
(* ================================================================== *)

(** Scenario A: the fetch for 24h succeeds with a single-period record. *)
Example scenario_live_24h :
  let data := {| Data.error := None;
                 Data.sentiment := Some mockSentimentData.sentiment24h;
                 Data.sentiment24h := None; Data.sentiment7d := None;
                 Data.sentiment30d := None |} in
  let sys := handle mounted (Settle 0 (ok data)) in
  currentSentiment (state (world sys)) = Some mockSentimentData.sentiment24h
  /\ error (state (world sys)) = None
  /\ isLoading (state (world sys)) = false
  /\ toasts (world sys) = [].
Proof. repeat split. Qed.

(** Scenario B: the fetch for 7d meets a transport error. *)
Example scenario_transport_error_7d :
  let sys := run [Settle 0 (ok only24h); Click P7d;
                  Settle 1 (transportError "network timeout")] mounted in
  Data.get P7d (sentimentData (state (world sys)))
  = Some mockSentimentData.sentiment7d
  /\ error (state (world sys)) = Some "network timeout"
  /\ toasts (world sys)
     = [toast_error "Error loading market data: network timeout"].
Proof. repeat split. Qed.

(** Scenario C: the fetch for 30d is answered by [{}]. *)
Example scenario_empty_payload_30d :
  let sys := run [Click P30d; Settle 1 (ok Data.empty)] mounted in
  sentimentData (state (world sys)) = mockTable P30d
  /\ error (state (world sys)) = None
  /\ toasts (world sys)
     = [toast_warning "Using simulated market data. Connect APIs for live data."]
  /\ getChartData (state (world sys))
     = [Point.mk "24h" 75; Point.mk "7d" 62; Point.mk "30d" 48].
Proof. repeat split. Qed.

(** Scenario D, with responses that carry the requested period only: after
    the 7d response the chart shows the 7d point alone. *)
Example scenario_switch_periods :
  let sys := run [Settle 0 (ok only24h); Click P7d; Settle 1 (ok only7d)] mounted in
  getChartData (state (world (handle mounted (Settle 0 (ok only24h)))))
  = [Point.mk "24h" 75]
  /\ getChartData (state (world sys)) = [Point.mk "7d" 10]
  /\ getChartData (state (world (handle sys (Click P24h)))) = [Point.mk "7d" 10].
Proof. repeat split. Qed.

(** Two requests in flight at once: the failure of the newer request sets
    the error, and a response without any sentiment object to the older one
    stores the fallback table and leaves that error in the state. *)
Example unrecognized_after_other_failure :
  error (state (world failedWhileWaiting)) = Some "network timeout"
  /\ branchOf (ok Data.empty) = Unrecognized
  /\ error (state (world (handle failedWhileWaiting (Settle 0 (ok Data.empty)))))
     = Some "network timeout"
  /\ sentimentData (state (world (handle failedWhileWaiting (Settle 0 (ok Data.empty)))))
     = mockTable P24h.
Proof. repeat split. Qed.

(** The loading flag falls when any response arrives, also while another
    request is still in flight. *)
Example loading_ends_with_request_in_flight :
  inflight switchedTo7d = [(0%nat, P24h)]
  /\ isLoading (state (world switchedTo7d)) = false.
Proof. repeat split. Qed.

(* ================================================================== *)
(** ** Further properties of fetchSentimentData *)
(* ================================================================== *)

Lemma branchOf_Live_inv (awaited : Settled) (data : Data.t) :
  branchOf awaited = Live data ->
  awaited = ok data /\ errorField data = None /\ hasSentiment data = true.
Proof.
  destruct awaited as [reason | [[d|] [e|]]]; simpl; try discriminate.
  destruct (errorField d) eqn:He; [discriminate|].
  destruct (hasSentiment d) eqn:Hs; [|discriminate].
  intros H. injection H as <-. repeat split; assumption.
Qed.

Lemma hasSentiment_mockTable (p : Period) : hasSentiment (mockTable p) = true.
Proof. reflexivity. Qed.

Lemma currentSentiment_mockTable (p tf : Period) (b : bool) (e : option string) :
  currentSentiment (mkState tf b e (mockTable p)) = Some (mockSentimentData.get p).
Proof. reflexivity. Qed.

(** X1: when the awaited promise is fulfilled, with whatever result
    (transport error, null payload, error field, unrecognized or live
    payload), or rejected with a reason that is an object, no exception
    leaves [fetchSentimentData] or its continuation, the loading flag is
    down when it ends and the selected timeframe is the one it found.  When
    the promise is rejected with [null] or [undefined], reading
    [err.message] in the [catch] block throws: that exception does leave
    the function, and the continuation has lowered the loading flag and
    done nothing else: no error is set, no fallback table stored, no
    notification emitted. *)
Theorem fetchSentimentData_exception_safety :
  (forall (p : Period) (awaited : Settled) (w : World),
     throws (fetchSentimentData_resume p awaited) w = false
     /\ throws (fetchSentimentData p awaited) w = false
     /\ isLoading (state (exec (fetchSentimentData_resume p awaited) w)) = false
     /\ isLoading (state (exec (fetchSentimentData p awaited) w)) = false
     /\ timeframe (state (exec (fetchSentimentData_resume p awaited) w))
        = timeframe (state w)
     /\ timeframe (state (exec (fetchSentimentData p awaited) w))
        = timeframe (state w))
  /\ (forall (typeError reason : Err) (p : Period) (w : World),
        fetchSentimentData_rejected typeError p (Some reason) w
        = fetchSentimentData_resume p (Rejected reason) w)
  /\ (forall (typeError : Err) (p : Period) (w : World),
        fetchSentimentData_rejected typeError p None w
        = ({| state := mkState (timeframe (state w)) false (error (state w))
                               (sentimentData (state w));
              toasts := toasts w |}, inl typeError)
        /\ throws (fetchSentimentData_rejected typeError p None) w = true).
Proof.
  split; [|split].
  - intros p awaited w.
    unfold throws.
    rewrite fetchSentimentData_resume_spec, fetchSentimentData_spec.
    rewrite exec_fetchSentimentData_resume, exec_fetchSentimentData.
    destruct (branchOf awaited); simpl; repeat split.
  - intros typeError reason p w. reflexivity.
  - intros typeError p w. split; reflexivity.
Qed.

(** X2: a whole call emits at most one notification and keeps the earlier
    ones.  When it leaves an error in the state it has emitted exactly one
    error notification, whose text is "Error loading market data: " followed
    by that very error message; the one exception is a rejection whose
    message is empty, where the state says "Failed to fetch market
    sentiment" and the notification "Unknown error".  When it leaves no
    error it has emitted nothing (live) or the one warning (unrecognized
    payload). *)
Theorem notification_matches_error :
  forall (p : Period) (awaited : Settled) (w : World),
    let w' := exec (fetchSentimentData p awaited) w in
    match error (state w') with
    | Some e =>
        toasts w'
        = toasts w ++ [toast_error (String.append "Error loading market data: " e)]
        \/ (exists reason, awaited = Rejected reason
              /\ message reason = ""
              /\ e = "Failed to fetch market sentiment"
              /\ toasts w'
                 = toasts w ++ [toast_error "Error loading market data: Unknown error"])
    | None =>
        toasts w'
        = toasts w
          ++ (if isLive (branchOf awaited) then []
              else [toast_warning
                      "Using simulated market data. Connect APIs for live data."])
    end.
Proof.
  intros p awaited w w'. subst w'.
  rewrite exec_fetchSentimentData.
  destruct awaited as [[m] | [[data|] [[m]|]]]; simpl.
  - destruct m as [|c m]; [right | left; reflexivity].
    exists (mkErr ""). repeat split.
  - left. destruct m; reflexivity.
  - destruct (errorField data) as [e|] eqn:He; simpl.
    + left. pose proof (errorField_truthy _ _ He) as Ht.
      now rewrite !(or_else_id _ _ Ht).
    + destruct (hasSentiment data); reflexivity.
  - left. destruct m; reflexivity.
  - left. reflexivity.
Qed.

(** X3: a whole call forgets the past.  The state it leaves depends on the
    state it found through the selected timeframe only: the earlier loading
    flag, error and records play no part.  Hence repeating a call with the
    same response changes the state no further. *)
Theorem fetchSentimentData_forgets_history :
  (forall (p : Period) (awaited : Settled) (w : World)
          (b : bool) (e : option string) (d : Data.t) (ts : list Toast),
     state (exec (fetchSentimentData p awaited) w)
     = state (exec (fetchSentimentData p awaited)
                {| state := mkState (timeframe (state w)) b e d; toasts := ts |}))
  /\ (forall (p : Period) (awaited : Settled) (w : World),
        state (exec (fetchSentimentData p awaited)
                 (exec (fetchSentimentData p awaited) w))
        = state (exec (fetchSentimentData p awaited) w)).
Proof.
  split.
  - intros p awaited w b e d ts. rewrite !exec_fetchSentimentData.
    destruct (branchOf awaited); reflexivity.
  - intros p awaited w. rewrite !exec_fetchSentimentData.
    destruct (branchOf awaited); reflexivity.
Qed.

(* ================================================================== *)
(** ** What is on the screen after a fetch *)
(* ================================================================== *)

Lemma getChartData_mockTable (p tf : Period) (b : bool) (e : option string) :
  getChartData (mkState tf b e (mockTable p)) = mockChart.
Proof. reflexivity. Qed.

Lemma content_not_loading (s : State) :
  isLoading s = false ->
  content s = match errorShown s, currentSentiment s with
              | Some e, None => ErrorPanel e
              | _, Some r => DashboardPanel (dashboard s r)
              | None, None => NoDataPanel
              end.
Proof. intros H. unfold content. now rewrite H. Qed.

(** X4: when a request falls back, for whatever cause, the continuation
    leaves the dashboard on the screen, filled with the static record of the
    period the request was sent for and the full static chart, whatever the
    state it ran on; the header shows that record too, and the error panel
    is not shown although an error may be set. *)
Theorem fallback_shows_static_dashboard :
  forall (p : Period) (awaited : Settled) (w : World),
    isLive (branchOf awaited) = false ->
    let s' := state (exec (fetchSentimentData_resume p awaited) w) in
    currentSentiment s' = Some (mockSentimentData.get p)
    /\ getChartData s' = mockChart
    /\ content s' = DashboardPanel (dashboard s' (mockSentimentData.get p))
    /\ chart (dashboard s' (mockSentimentData.get p)) = mockChart
    /\ header s'
       = Some {| badgeClass :=
                   getSentimentColor
                     (Some (sentimentName (sentiment (mockSentimentData.get p))));
                 badgeOf := sentiment (mockSentimentData.get p);
                 scoreShown := value (mockSentimentData.get p) |}.
Proof.
  intros p awaited w Hb s'. subst s'.
  rewrite exec_fetchSentimentData_resume.
  destruct (branchOf awaited) as [data| |err]; [discriminate Hb| |];
    cbn [state settledState].
  - repeat split.
    unfold content; cbn [isLoading]. rewrite currentSentiment_mockTable.
    destruct (errorShown _); reflexivity.
  - repeat split.
    unfold content; cbn [isLoading]. rewrite currentSentiment_mockTable.
    destruct (errorShown _); reflexivity.
Qed.

(** X4 at a rejected request for 30d while 24h is selected. *)
Lemma fallback_shows_static_dashboard_witness :
  timeframe (state holding7d) = P24h
  /\ let s' := state (exec (fetchSentimentData_resume P30d
                              (Rejected (mkErr "network timeout"))) holding7d) in
     currentSentiment s' = Some (mockSentimentData.get P30d)
     /\ getChartData s' = mockChart
     /\ content s' = DashboardPanel (dashboard s' (mockSentimentData.get P30d))
     /\ chart (dashboard s' (mockSentimentData.get P30d)) = mockChart
     /\ header s'
        = Some {| badgeClass :=
                    getSentimentColor
                      (Some (sentimentName (sentiment (mockSentimentData.get P30d))));
                  badgeOf := sentiment (mockSentimentData.get P30d);
                  scoreShown := value (mockSentimentData.get P30d) |}.
Proof.
  split; [reflexivity|].
  apply (fallback_shows_static_dashboard P30d (Rejected (mkErr "network timeout"))
           holding7d).
  reflexivity.
Defined.

(** X5: right after a whole call of [fetchSentimentData] the card shows
    neither the spinner nor the "Data Fetch Error" panel: it shows the
    dashboard of the current record when there is one, and the "no data"
    line otherwise, which happens only for a live response that carries no
    record for the selected timeframe. *)
Theorem no_error_panel_after_fetch :
  forall (p : Period) (awaited : Settled) (w : World),
    let s' := state (exec (fetchSentimentData p awaited) w) in
    content s' = match currentSentiment s' with
                 | Some r => DashboardPanel (dashboard s' r)
                 | None => NoDataPanel
                 end
    /\ match currentSentiment s' with
       | Some _ => True
       | None => exists data,
           awaited = ok data /\ hasSentiment data = true
           /\ Data.sentiment data = None
           /\ Data.get (timeframe (state w)) data = None
       end.
Proof.
  intros p awaited w s'. subst s'.
  rewrite exec_fetchSentimentData.
  destruct (branchOf awaited) as [data| |err] eqn:Hb; cbn [state settledState].
  - split.
    + unfold content, errorShown; cbn [isLoading error].
      destruct (currentSentiment _); reflexivity.
    + destruct (branchOf_Live_inv _ _ Hb) as [-> [_ Hs]].
      unfold currentSentiment, or_obj; cbn [sentimentData timeframe].
      destruct (Data.sentiment data) eqn:Hsent; [exact I|].
      destruct (timeframe (state w)); cbn [Period_eqb Data.get];
        match goal with
        | |- match ?x with _ => _ end => destruct x eqn:Hx; [exact I|]
        end; exists data; repeat split; assumption.
  - split; [|exact I].
    unfold content, errorShown; cbn [isLoading error]. reflexivity.
  - split; [|exact I].
    unfold content; cbn [isLoading]. rewrite currentSentiment_mockTable.
    destruct (errorShown _); reflexivity.
Qed.

(** X6: the badge under the title and the dashboard go together: in every
    state the header is rendered exactly when the card shows the dashboard,
    and both are drawn from the same record, the current one. *)
Theorem header_with_dashboard :
  forall s : State,
    match content s with
    | DashboardPanel v =>
        exists r, currentSentiment s = Some r
                  /\ v = dashboard s r
                  /\ header s
                     = Some {| badgeClass :=
                                 getSentimentColor (Some (sentimentName (sentiment r)));
                               badgeOf := sentiment r;
                               scoreShown := value r |}
    | LoadingPanel | ErrorPanel _ | NoDataPanel => header s = None
    end.
Proof.
  intros s. unfold content, header.
  destruct (isLoading s); [reflexivity|]. cbn [negb].
  destruct (errorShown s), (currentSentiment s) as [r|]; try reflexivity;
    exists r; repeat split.
Qed.

(** X7: the chart is empty exactly when the store has no record under any of
    the three period keys; the single-period [sentiment] record is not
    plotted, so a live response that carries only that record gives a
    dashboard whose chart is empty. *)
Theorem chart_empty_iff_no_period_record :
  (forall s : State,
     getChartData s = []
     <-> (forall p : Period, Data.get p (sentimentData s) = None))
  /\ (forall (p : Period) (r : SentimentData) (w : World),
        let s' := state (exec (fetchSentimentData p (ok (singlePeriod r))) w) in
        content s' = DashboardPanel (dashboard s' r)
        /\ chart (dashboard s' r) = []).
Proof.
  split.
  - intros s. rewrite getChartData_buildSeries.
    unfold buildSeries, canonicalOrder, pointOf. cbn [flat_map]. split.
    + intros H p.
      destruct (Data.get P24h (sentimentData s)) eqn:H1; [discriminate H|].
      destruct (Data.get P7d (sentimentData s)) eqn:H2; [discriminate H|].
      destruct (Data.get P30d (sentimentData s)) eqn:H3; [discriminate H|].
      destruct p; assumption.
    + intros H. now rewrite (H P24h), (H P7d), (H P30d).
  - intros p r w s'. subst s'. rewrite exec_fetchSentimentData.
    split; reflexivity.
Qed.

(* ================================================================== *)
(** ** Colours, icons and labels *)
(* ================================================================== *)

(** X8: the badge, the insights icon and the market-status mark always use
    one and the same colour for a classification string, whatever the
    string: green for "bullish", red for "bearish", blue for anything
    else. *)
Theorem colours_agree :
  forall s : string,
    exists hue : string,
      getSentimentColor (Some s)
      = String.append "bg-" (String.append hue
          (String.append "-500 text-" (String.append hue "-50")))
      /\ iconClass (getSentimentIcon (Some s))
         = String.append "h-5 w-5 text-" (String.append hue "-500")
      /\ statusDotClass s
         = String.append "w-3 h-3 rounded-full bg-" (String.append hue "-500")
      /\ (hue = "green" /\ s = "bullish" /\ statusLabel s = "Bullish Market"
             /\ iconKind (getSentimentIcon (Some s)) = TrendingUp
          \/ hue = "red" /\ s = "bearish" /\ statusLabel s = "Bearish Market"
             /\ iconKind (getSentimentIcon (Some s)) = TrendingDown
          \/ hue = "blue" /\ statusLabel s = "Neutral Market"
             /\ iconKind (getSentimentIcon (Some s)) = Activity).
Proof.
  intros s.
  unfold getSentimentColor, getSentimentIcon, statusDotClass, statusLabel.
  destruct (String.eqb_spec s "bullish") as [->|Hb].
  - exists "green". repeat split. left. repeat split.
  - destruct (String.eqb_spec s "bearish") as [->|Hr].
    + exists "red". repeat split. right; left. repeat split.
    + exists "blue". repeat split. right; right. repeat split.
Qed.

(** X9: a classification the component does not know (any string other than
    "bullish" and "bearish", the comparison being exact, or no string at
    all) is presented as neutral: blue badge, the activity icon, the label
    "Neutral Market". *)
Theorem unknown_classification_is_neutral :
  forall s : string,
    s <> "bullish" -> s <> "bearish" ->
    getSentimentColor (Some s) = getSentimentColor (Some (sentimentName neutral))
    /\ getSentimentColor (Some s) = getSentimentColor None
    /\ getSentimentIcon (Some s) = getSentimentIcon (Some (sentimentName neutral))
    /\ getSentimentIcon (Some s) = getSentimentIcon None
    /\ statusDotClass s = statusDotClass (sentimentName neutral)
    /\ statusLabel s = "Neutral Market".
Proof.
  intros s Hb Hr.
  unfold getSentimentColor, getSentimentIcon, statusDotClass, statusLabel.
  destruct (String.eqb_spec s "bullish") as [E|_]; [contradiction|].
  destruct (String.eqb_spec s "bearish") as [E|_]; [contradiction|].
  repeat split.
Qed.

(** X9 at a classification written with a capital letter. *)
Lemma unknown_classification_is_neutral_witness :
  getSentimentColor (Some "Bullish") = getSentimentColor (Some (sentimentName neutral))
  /\ getSentimentColor (Some "Bullish") = getSentimentColor None
  /\ getSentimentIcon (Some "Bullish") = getSentimentIcon (Some (sentimentName neutral))
  /\ getSentimentIcon (Some "Bullish") = getSentimentIcon None
  /\ statusDotClass "Bullish" = statusDotClass (sentimentName neutral)
  /\ statusLabel "Bullish" = "Neutral Market".
Proof.
  apply (unknown_classification_is_neutral "Bullish"); discriminate.
Defined.

(* ================================================================== *)
(** ** Buttons and requests *)
(* ================================================================== *)

Lemma world_issue (p : Period) (sys : System) :
  world (issue p sys)
  = {| state := mkState (timeframe (state (world sys))) true None
                        (sentimentData (state (world sys)));
       toasts := toasts (world sys) |}.
Proof. reflexivity. Qed.

(** X10: a click on a timeframe button selects that timeframe and
    highlights that button alone; it changes neither the stored records nor
    the notifications.  A click on the button already selected changes
    nothing at all and sends no request; any other click raises the loading
    flag, clears the error and sends exactly one request, for the new
    timeframe. *)
Theorem click_selects_timeframe :
  forall (sys : System) (p : Period),
    let sys' := handle sys (Click p) in
    timeframe (state (world sys')) = p
    /\ (forall b : Period,
          variant (timeframeButton (state (world sys')) b)
          = if Period_eqb p b then "default" else "outline")
    /\ sentimentData (state (world sys')) = sentimentData (state (world sys))
    /\ toasts (world sys') = toasts (world sys)
    /\ (if Period_eqb p (timeframe (state (world sys))) then sys' = sys
        else isLoading (state (world sys')) = true
             /\ error (state (world sys')) = None
             /\ inflight sys' = inflight sys ++ [(length (issued sys), p)]
             /\ issued sys' = issued sys ++ [(length (issued sys), p)]).
Proof.
  intros sys p sys'. subst sys'. cbn [handle].
  destruct (Period_eqb p (timeframe (state (world sys)))) eqn:Hsel.
  - apply Period_eqb_eq in Hsel. rewrite <- Hsel.
    repeat split. intros b. unfold timeframeButton, variant. now rewrite <- Hsel.
  - repeat split.
Qed.

Lemma pendingPeriod_fresh (id : nat) (p : Period) (l : list (nat * Period)) :
  (forall x, In x l -> fst x <> id) ->
  pendingPeriod id (l ++ [(id, p)]) = Some p.
Proof.
  induction l as [|[j q] l IH]; intros Hfresh; simpl.
  - now rewrite Nat.eqb_refl.
  - destruct (Nat.eqb_spec j id) as [E|_].
    + exfalso. apply (Hfresh (j, q)); [now left | exact E].
    + apply IH. intros x Hx. apply Hfresh. now right.
Qed.

(** The number of the next request is not in flight yet. *)
Lemma reachable_fresh (sys : System) :
  reachable sys ->
  forall x, In x (inflight sys) -> fst x <> length (issued sys).
Proof.
  intros Hr x Hx.
  destruct (reachable_requests sys Hr) as [Hin Hseq].
  assert (Hfst : In (fst x) (map fst (issued sys))) by (apply in_map, Hin, Hx).
  rewrite Hseq in Hfst. apply in_seq in Hfst. lia.
Qed.

(** X11: a refresh whose response arrives before anything else happens is
    one whole call of [fetchSentimentData] for the selected timeframe, from
    whatever the component did before; likewise a click on another
    timeframe followed by its response is [setTimeframe] and then one whole
    call for the new timeframe. *)
Theorem refresh_then_response :
  forall (trace : list Event) (awaited : Settled) (p : Period),
    let sys := run trace mounted in
    let id := length (issued sys) in
    world (handle (handle sys Refresh) (Settle id awaited))
    = exec (fetchSentimentData (timeframe (state (world sys))) awaited) (world sys)
    /\ (if Period_eqb p (timeframe (state (world sys))) then True
        else world (handle (handle sys (Click p)) (Settle id awaited))
             = exec (fetchSentimentData p awaited)
                    (exec (setTimeframe p) (world sys))).
Proof.
  intros trace awaited p sys id.
  assert (Hr : reachable sys) by (apply reachable_run, reachable_mounted).
  pose proof (reachable_fresh sys Hr) as Hfresh.
  split.
  - cbn [handle]. unfold issue at 1. cbn [inflight].
    rewrite (pendingPeriod_fresh id _ (inflight sys) Hfresh). reflexivity.
  - destruct (Period_eqb p (timeframe (state (world sys)))) eqn:Hsel; [exact I|].
    cbn [handle]. rewrite Hsel. unfold issue at 1. cbn [inflight issued].
    rewrite (pendingPeriod_fresh id _ (inflight sys) Hfresh). reflexivity.
Qed.

(* ================================================================== *)
(** ** Invariants of the component on the event loop *)
(* ================================================================== *)

Ltac handle_cases sys ev :=
  let p := fresh "p" in
  let id := fresh "id" in
  let awaited := fresh "awaited" in
  let Hsel := fresh "Hsel" in
  let Hpend := fresh "Hpend" in
  destruct ev as [p | | id awaited]; cbn [handle];
  [ destruct (Period_eqb p (timeframe (state (world sys)))) eqn:Hsel
  |
  | destruct (pendingPeriod id (inflight sys)) as [p|] eqn:Hpend ].

Lemma dropRequest_shorter (id : nat) (p : Period) (l : list (nat * Period)) :
  pendingPeriod id l = Some p ->
  (length (dropRequest id l) < length l)%nat.
Proof.
  unfold dropRequest.
  induction l as [|[j q] l IH]; simpl; [discriminate|].
  destruct (Nat.eqb_spec j id) as [_|_]; simpl.
  - intros _. pose proof (filter_length_le
      (fun jp : nat * Period => negb (Nat.eqb (fst jp) id)) l). lia.
  - intros H. specialize (IH H). lia.
Qed.

Lemma settledToasts_length (b : Branch) : (length (settledToasts b) <= 1)%nat.
Proof. destruct b; simpl; lia. Qed.

Lemma settledState_error_truthy (p : Period) (b : Branch) (s : State) :
  match error s with Some e => truthy e = true | None => True end ->
  match error (settledState p b s) with Some e => truthy e = true | None => True end.
Proof.
  destruct b; simpl; try easy.
  intros _. now apply or_else_truthy.
Qed.

Lemma reachable_error_truthy (sys : System) :
  reachable sys ->
  match error (state (world sys)) with
  | Some e => truthy e = true
  | None => True
  end.
Proof.
  induction 1 as [|sys ev Hsys IH]; [exact I|].
  handle_cases sys ev; try exact IH; try exact I.
  cbn [world]. rewrite exec_fetchSentimentData_resume. cbn [state].
  now apply settledState_error_truthy.
Qed.

(** X12: on the event loop the error of the state is never the empty
    string: it is unset or a non-empty message, so the test [error && ...]
    of the card is the test "an error is set". *)
Theorem error_never_empty :
  forall trace : list Event,
    let s := state (world (run trace mounted)) in
    match error s with
    | Some e => truthy e = true /\ errorShown s = Some e
    | None => errorShown s = None
    end.
Proof.
  intros trace s. subst s.
  pose proof (reachable_error_truthy _ (reachable_run trace _ reachable_mounted)) as H.
  unfold errorShown.
  destruct (error (state (world (run trace mounted)))) as [e|]; [|reflexivity].
  rewrite H. split; reflexivity.
Qed.



Lemma reachable_loading (sys : System) :
  reachable sys ->
  isLoading (state (world sys)) = true -> (1 <= length (inflight sys))%nat.
Proof.
  induction 1 as [|sys ev Hsys IH].
  - intros _. simpl. lia.
  - handle_cases sys ev; try exact IH.
    + intros _. cbn [issue inflight]. rewrite length_app. simpl. lia.
    + intros _. cbn [issue inflight]. rewrite length_app. simpl. lia.
    + cbn [world]. rewrite exec_fetchSentimentData_resume. cbn [state].
      destruct (branchOf awaited); cbn [settledState isLoading]; discriminate.
Qed.

(** X14: on the event loop the spinner is shown only while a request is in
    flight: whenever the loading flag is up, at least one promise has not
    settled yet. *)
Theorem loading_only_while_in_flight :
  forall trace : list Event,
    let sys := run trace mounted in
    content (state (world sys)) = LoadingPanel ->
    isLoading (state (world sys)) = true
    /\ (1 <= length (inflight sys))%nat.
Proof.
  intros trace sys Hc. subst sys.
  assert (Hl : isLoading (state (world (run trace mounted))) = true).
  { unfold content in Hc.
    destruct (isLoading (state (world (run trace mounted)))); [reflexivity|].
    destruct (errorShown _), (currentSentiment _); discriminate Hc. }
  split; [exact Hl|].
  now apply reachable_loading; [apply reachable_run, reachable_mounted|].
Qed.

(** X14 right after mounting. *)
Lemma loading_only_while_in_flight_witness :
  isLoading (state (world (run [] mounted))) = true
  /\ (1 <= length (inflight (run [] mounted)))%nat.
Proof.
  apply (loading_only_while_in_flight []). reflexivity.
Defined.

Lemma reachable_latest (sys : System) :
  reachable sys ->
  nth_error (issued sys) (length (issued sys) - 1)
  = Some ((length (issued sys) - 1)%nat, timeframe (state (world sys))).
Proof.
  assert (Hlast : forall (l : list (nat * Period)) (p : Period),
    nth_error (l ++ [(length l, p)]) (length (l ++ [(length l, p)]) - 1)
    = Some ((length (l ++ [(length l, p)]) - 1)%nat, p)).
  { intros l p. rewrite length_app. simpl.
    replace (length l + 1 - 1)%nat with (length l) by lia.
    rewrite nth_error_app2 by lia. now rewrite Nat.sub_diag. }
  induction 1 as [|sys ev Hsys IH].
  - reflexivity.
  - handle_cases sys ev; try exact IH.
    + cbn [issue issued world]. apply Hlast.
    + cbn [issue issued world]. apply Hlast.
    + cbn [issued world]. rewrite exec_fetchSentimentData_resume. cbn [state].
      rewrite IH. destruct (branchOf awaited); reflexivity.
Qed.

(** X15: on the event loop the request sent last is always a request for
    the timeframe that is selected: the effect on [timeframe] and the
    refresh button keep the two together. *)
Theorem latest_request_is_for_selected :
  forall trace : list Event,
    let sys := run trace mounted in
    nth_error (issued sys) (length (issued sys) - 1)
    = Some ((length (issued sys) - 1)%nat, timeframe (state (world sys))).
Proof.
  intros trace sys. subst sys.
  apply reachable_latest, reachable_run, reachable_mounted.
Qed.

Lemma reachable_toasts (sys : System) :
  reachable sys ->
  (length (toasts (world sys)) + length (inflight sys) <= length (issued sys))%nat.
Proof.
  induction 1 as [|sys ev Hsys IH].
  - simpl. lia.
  - handle_cases sys ev; try exact IH.
    + unfold issue; cbn [inflight issued world].
      replace (toasts (exec (fetchSentimentData_begin p)
                         (exec (setTimeframe p) (world sys))))
        with (toasts (world sys)) by reflexivity.
      rewrite !length_app. simpl. lia.
    + rewrite world_issue. unfold issue; cbn [inflight issued toasts].
      rewrite !length_app. simpl. lia.
    + cbn [world inflight issued]. rewrite exec_fetchSentimentData_resume.
      cbn [toasts]. rewrite length_app.
      pose proof (settledToasts_length (branchOf awaited)).
      pose proof (dropRequest_shorter _ _ _ Hpend). lia.
Qed.

(** X16: on the event loop the component has emitted at most one
    notification for each request that has settled: the notifications and
    the requests in flight together never outnumber the requests sent. *)
Theorem at_most_one_toast_per_request :
  forall trace : list Event,
    let sys := run trace mounted in
    (length (toasts (world sys)) + length (inflight sys) <= length (issued sys))%nat.
Proof.
  intros trace sys. subst sys.
  apply reachable_toasts, reachable_run, reachable_mounted.
Qed.

(** With two requests in flight the "Data Fetch Error" panel can appear: the
    failure of the newer request sets the error, and the live response of
    the older one, which carries no record for the selected timeframe,
    replaces the fallback table. *)
Example error_panel_after_race :
  content (state (world failedThenForeignRecord)) = ErrorPanel "network timeout"
  /\ timeframe (state (world failedThenForeignRecord)) = P24h
  /\ sentimentData (state (world failedThenForeignRecord)) = only7d.
Proof. repeat split. Qed.
